(** * etcdctl cluster-health: a shallow embedding and its properties

    Source: vendor/github.com/coreos/etcd/etcdctl/command/cluster_health.go

    The command probes the members of an etcd cluster for the one that
    reports itself leader, reads the leader's raft status twice, one second
    apart, and prints whether the commit index and every follower's match
    index advanced.

    The embedding keeps the shape of the Go code:
    - [raftStatus], [vars] are the structs of the file;
    - the effects of the handler (HTTP GET, printing on standard output,
      sleeping, [os.Exit]) are actions of a small state-and-exit monad [M]
      over the chronological trace of events of the process;
    - what the outside world answers is an oracle [env]: the answer to the
      n-th HTTP request and the order in which a [range] over a map
      enumerates its entries. *)

From Stdlib Require Import String Ascii NArith ZArith List Permutation.
From stdpp Require Import base gmap strings list fin_maps sorting pretty.

Local Open Scope string_scope.
Local Open Scope N_scope.
Local Open Scope list_scope.

(** ** Data model *)

(** The anonymous struct that is the value type of [raftStatus.Progress].
    [Match] and [Next] are [uint64] in the source; they are only decoded,
    compared and printed, never computed with, so they are carried as [N]. *)
Record progress := mkProgress {
  Match : N;
  Next : N;
  State : string
}.

(** [type raftStatus struct], lines 119-131. *)
Record raftStatus := mkRaftStatus {
  ID : string;
  Term : N;
  Vote : string;
  Commit : N;
  Lead : string;
  RaftState : string;
  Progress : gmap string progress
}.

(** [type vars struct], lines 133-135. *)
Record vars := mkVars {
  RaftStatus : raftStatus
}.

(** The zero value [raftStatus{}] returned next to the "no leader" error. *)
Definition raftStatus_zero : raftStatus :=
  mkRaftStatus "" 0 "" 0 "" "" ∅.

(** [http.StatusOK]. *)
Definition StatusOK : Z := 200%Z.

(** What [httpclient.Get] followed by [json.NewDecoder(resp.Body).Decode]
    can observe of one request: a transport error, or a response with its
    status code and its body, the body given by what the JSON decoder makes
    of it ([None] when [Decode] returns an error). *)
Inductive http_result :=
  | TransportError
  | Response (StatusCode : Z) (Body : option vars).

(** A member as returned by the members API: only its client URLs are used. *)
Record member := mkMember {
  ClientURLs : list string
}.

(** ** The process and its environment *)

Inductive event :=
  | EvGet (url : string)
  | EvPrint (s : string)
  | EvSleep (seconds : N).

Definition trace := list event.

Definition isGet (e : event) : bool :=
  match e with EvGet _ => true | _ => false end.

(** Number of HTTP requests issued so far. *)
Definition nreqs (w : trace) : nat := length (List.filter isGet w).

(** The environment of one run. [httpAnswer n url] is the outcome of the
    request for [url] when it is the n-th request of the process (counted
    from 0). [rangeOrder t m] is the order in which a [for ... range m]
    started after [t] events enumerates the entries of [m]: Go leaves it
    unspecified, so it is a parameter constrained by [env_ok] only. *)
Record env := mkEnv {
  httpAnswer : nat -> string -> http_result;
  rangeOrder : nat -> gmap string progress -> list (string * progress)
}.

Definition env_ok (e : env) : Prop :=
  forall t m, rangeOrder e t m ≡ₚ map_to_list m.

(** A computation either yields a value or has called [os.Exit]. *)
Inductive res (A : Type) :=
  | Done (a : A)
  | Exited (code : Z).
Arguments Done {A} a.
Arguments Exited {A} code.

Definition M (A : Type) : Type := trace -> res A * trace.

Definition ret {A} (a : A) : M A := fun w => (Done a, w).

Definition bind {A B} (c : M A) (k : A -> M B) : M B :=
  fun w =>
    match c w with
    | (Done a, w') => k a w'
    | (Exited code, w') => (Exited code, w')
    end.

Declare Scope go_scope.
Delimit Scope go_scope with go.
Notation "'let*' p ':=' c 'in' k" := (bind c (fun p => k))
  (at level 10, p pattern, c at level 100, k at level 200,
   only parsing) : go_scope.
Notation "c ;;; k" := (bind c (fun _ => k))
  (at level 100, k at level 200, right associativity,
   only parsing) : go_scope.

Definition emit (e : event) : M unit := fun w => (Done tt, w ++ [e]).

(** [fmt.Print]. *)
Definition print (s : string) : M unit := emit (EvPrint s).

(** [time.Sleep(n * time.Second)]. *)
Definition sleep (seconds : N) : M unit := emit (EvSleep seconds).

(** [os.Exit(code)]: nothing after it runs. *)
Definition osExit {A} (code : Z) : M A := fun w => (Exited code, w).

Definition newline : string := String (ascii_of_nat 10) "".

(** [fmt.Println(s)]. *)
Definition println (s : string) : M unit := print (s +:+ newline).

(** [%v] of a [uint64]: decimal digits. *)
Definition fmtUint (n : N) : string := pretty n.

(** [%v] of a [[]string], as [fmt.Println] prints it: [[a b c]]. *)
Definition fmtStrings (l : list string) : string :=
  "[" +:+ String.concat " " l +:+ "]".

(** [sort.Strings]: the slice in increasing order of Go's [<] on strings,
    the byte-wise lexicographic order. *)
Definition sortStrings (l : list string) : list string :=
  merge_sort String.le l.

Section Handler.

Variable E : env.

(** [httpclient.Get(url)]: one event per call, answered by the response or
    error the call returns to the handler, after whatever redirects the
    client followed on its own. *)
Definition httpGet (url : string) : M http_result :=
  fun w => (Done (httpAnswer E (nreqs w) url), w ++ [EvGet url]).

(** The enumeration of [for id, pr := range m]. *)
Definition rangeMap (m : gmap string progress) : M (list (string * progress)) :=
  fun w => (Done (rangeOrder E (length w) m), w).

(** Lines 144-158, the fetch of one endpoint's diagnostics: [Some vs] when
    the loop body gets past the three [continue]s that guard the transport
    error, the status code and the decoding. *)
Definition fetchVars (ep : string) : M (option vars) :=
  (let* r := httpGet (ep +:+ "/debug/vars") in
   match r with
   | TransportError => ret None
   | Response code body =>
       if negb (code =? StatusOK)%Z then ret None
       else ret body
   end)%go.

(** [func getLeaderStatus], lines 137-165. The Go function returns the
    triple [(string, raftStatus, error)]; the error is [None] for [nil]. *)
Fixpoint getLeaderStatus (endpoints : list string)
  : M (string * raftStatus * option string) :=
  match endpoints with
  | [] => ret ("", raftStatus_zero, Some "no leader")
  | ep :: rest =>
      (let* o := fetchVars ep in
       match o with
       | None => getLeaderStatus rest
       | Some vs =>
           if negb (String.eqb (Lead (RaftStatus vs)) (ID (RaftStatus vs)))
           then getLeaderStatus rest
           else ret (ep, RaftStatus vs, None)
       end)%go
  end.

(** The two outcomes the report distinguishes. The source has no such type:
    it is the branch taken by the [if] at lines 83 and 99, which selects the
    format string. *)
Inductive verdict := Healthy | Unhealthy.

(** Line 83: [rs1.Commit > rs0.Commit]. *)
Definition commitVerdict (rs0 rs1 : raftStatus) : verdict :=
  if Commit rs0 <? Commit rs1 then Healthy else Unhealthy.

(** The two [fmt.Printf] of lines 84 and 86. *)
Definition overallLine (v : verdict) (rs0 rs1 : raftStatus) : string :=
  match v with
  | Healthy =>
      "cluster is healthy: raft is making progress [commit index: "
      +:+ fmtUint (Commit rs0) +:+ "->" +:+ fmtUint (Commit rs1) +:+ "]"
      +:+ newline
  | Unhealthy =>
      "cluster is unhealthy: raft is not making progress [commit index: "
      +:+ fmtUint (Commit rs0) +:+ "]" +:+ newline
  end.

(** Line 88. *)
Definition leaderLine (rs0 : raftStatus) : string :=
  "leader is " +:+ Lead rs0 +:+ newline.

(** Line 99: [pr1.Match <= pr0.Match] selects the unhealthy line. *)
Definition matchVerdict (pr0 pr1 : progress) : verdict :=
  if Match pr1 <=? Match pr0 then Unhealthy else Healthy.

(** The two [fmt.Sprintf] of lines 100 and 102. *)
Definition memberLine (v : verdict) (id : string) (pr0 pr1 : progress)
  : string :=
  match v with
  | Unhealthy =>
      "member " +:+ id
      +:+ " is unhealthy: raft is not making progress [match: "
      +:+ fmtUint (Match pr0) +:+ "->" +:+ fmtUint (Match pr1) +:+ "]"
      +:+ newline
  | Healthy =>
      "member " +:+ id
      +:+ " is healthy: raft is making progress [match: "
      +:+ fmtUint (Match pr0) +:+ "->" +:+ fmtUint (Match pr1) +:+ "]"
      +:+ newline
  end.

Definition configChanged : string :=
  "Cluster configuration changed during health checking. Please retry.".

(** Lines 92-104: the loop over the entries of [rs0.Progress], in the order
    [items] of the enumeration; [prints] is the slice built so far. *)
Fixpoint memberLoop (items : list (string * progress))
    (progress1 : gmap string progress) (prints : list string)
  : M (list string) :=
  match items with
  | [] => ret prints
  | (id, pr0) :: rest =>
      match progress1 !! id with
      | None => (println configChanged ;;; osExit 1)%go
      | Some pr1 =>
          memberLoop rest progress1
            (prints ++ [memberLine (matchVerdict pr0 pr1) id pr0 pr1])
      end
  end.

(** Lines 107-109. *)
Fixpoint printAll (prints : list string) : M unit :=
  match prints with
  | [] => ret tt
  | p :: rest => (print p ;;; printAll rest)%go
  end.

(** How an iteration of the [for] of line 57 ends: with [continue] or by
    reaching its end ([Continue]), or with [return] ([Return]). *)
Inductive ctl := Continue | Return.

(** Lines 83-115: the report on two statuses of the leader. *)
Definition evaluate (forever : bool) (rs0 rs1 : raftStatus) : M ctl :=
  (print (overallLine (commitVerdict rs0 rs1) rs0 rs1) ;;;
   print (leaderLine rs0) ;;;
   let* items := rangeMap (Progress rs0) in
   let* prints := memberLoop items (Progress rs1) [] in
   printAll (sortStrings prints) ;;;
   if negb forever then ret Return
   else (sleep 10 ;;; ret Continue))%go.

(** Lines 63-67 and 76-80: what follows the message of a failed probe. *)
Definition probeFailed (forever : bool) : M ctl :=
  if forever then (sleep 10 ;;; ret Continue)%go
  else osExit 1.

(** Lines 58-115: one iteration of the [for] of line 57. *)
Definition cycle (forever : bool) (cl : list string) : M ctl :=
  (let* (ep, rs0, err) := getLeaderStatus cl in
   match err with
   | Some _ =>
       println ("cluster may be unhealthy: failed to connect"
                +:+ " " +:+ fmtStrings cl) ;;;
       probeFailed forever
   | None =>
       sleep 1 ;;;
       let* (_, rs1, err) := getLeaderStatus [ep] in
       match err with
       | Some _ =>
           println "cluster is unhealthy" ;;;
           probeFailed forever
       | None => evaluate forever rs0 rs1
       end
   end)%go.

(** The [for] of lines 57-116, run for at most [fuel] iterations: [Some tt]
    when the handler returned, [None] when it is still looping. *)
Fixpoint loop (fuel : nat) (forever : bool) (cl : list string)
  : M (option unit) :=
  match fuel with
  | O => ret None
  | S fuel' =>
      (let* c := cycle forever cl in
       match c with
       | Return => ret (Some tt)
       | Continue => loop fuel' forever cl
       end)%go
  end.

(** Lines 52-55: the client URLs of all members, in order. *)
Definition clientURLs (ms : list member) : list string :=
  flat_map ClientURLs ms.

(** [func handleClusterHealth], lines 28-117, from the point where the
    transport and the member list [ms] have been obtained (lines 40-51 call
    into other files and exit through their error handler on failure). The
    goroutine of lines 30-38, which exits with status 0 on an interrupt, is
    not part of the sequential model. *)
Definition handleClusterHealth (fuel : nat) (forever : bool)
    (ms : list member) : M (option unit) :=
  loop fuel forever (clientURLs ms).

End Handler.

(** The exit status of the process after the handler ran from the empty
    trace: the code given to [os.Exit], or 0 when the handler returned, as a
    Go program whose [main] returns exits with status 0; [None] while the
    handler is still looping. *)
Definition exitStatus (r : res (option unit)) : option Z :=
  match r with
  | Exited code => Some code
  | Done (Some _) => Some 0%Z
  | Done None => None
  end.

(** The lines printed in a trace, in order. *)
Definition printed (w : trace) : list string :=
  omap (fun e => match e with EvPrint s => Some s | _ => None end) w.

(** The URLs requested in a trace, in order: the arguments of the calls of
    [httpclient.Get]. *)
Definition requested (w : trace) : list string :=
  omap (fun e => match e with EvGet u => Some u | _ => None end) w.

(** ** Vocabulary of the properties *)

(** The diagnostics resource of an endpoint. *)
Definition debugVars (ep : string) : string := ep +:+ "/debug/vars".

Definition gets (eps : list string) : trace :=
  map (fun ep => EvGet (debugVars ep)) eps.

(** The answer carries a decoded status [rs] whose leader is its own id. *)
Definition selfReports (r : http_result) (rs : raftStatus) : Prop :=
  exists vs, r = Response StatusOK (Some vs) /\ RaftStatus vs = rs
             /\ Lead rs = ID rs.

(** The fetch fails: transport error, status other than 200, or a body that
    does not decode. *)
Definition fetchFails (r : http_result) : Prop :=
  r = TransportError
  \/ (exists code body, r = Response code body /\ code <> StatusOK)
  \/ (exists code, r = Response code None).

(** The fetch succeeds with a status that names another member as leader. *)
Definition notLeader (r : http_result) : Prop :=
  exists vs, r = Response StatusOK (Some vs)
             /\ Lead (RaftStatus vs) <> ID (RaftStatus vs).

Definition skipped (r : http_result) : Prop := fetchFails r \/ notLeader r.

(** The line of one entry of [rs0.Progress], when the member is still in
    [progress1]. *)
Definition reportLine (progress1 : gmap string progress)
    (item : string * progress) : option string :=
  match progress1 !! item.1 with
  | Some pr1 => Some (memberLine (matchVerdict item.2 pr1) item.1 item.2 pr1)
  | None => None
  end.

Definition renderMembers (items : list (string * progress))
    (progress1 : gmap string progress) : list string :=
  omap (reportLine progress1) items.

(** The member of [item] is still in [progress1]. *)
Definition present (progress1 : gmap string progress)
    (item : string * progress) : bool :=
  match progress1 !! item.1 with Some _ => true | None => false end.

(** The sorted lines of a report that runs to its end. *)
Definition memberReport (rs0 rs1 : raftStatus) : list string :=
  sortStrings (renderMembers (map_to_list (Progress rs0)) (Progress rs1)).

(** What line 62 prints. *)
Definition failedToConnect (cl : list string) : string :=
  ("cluster may be unhealthy: failed to connect" +:+ " " +:+ fmtStrings cl)
  +:+ newline.

(** No member followed in [rs0] is missing from [rs1]. *)
Definition membersKept (rs0 rs1 : raftStatus) : Prop :=
  dom (Progress rs0) ⊆ dom (Progress rs1).

(** The first two lines of every report. *)
Definition header (rs0 rs1 : raftStatus) : trace :=
  [EvPrint (overallLine (commitVerdict rs0 rs1) rs0 rs1);
   EvPrint (leaderLine rs0)].

(** What ends an iteration that printed its report. *)
Definition afterReport (forever : bool) : res ctl * trace :=
  if forever then (Done Continue, [EvSleep 10]) else (Done Return, []).

Definition withProgress (rs : raftStatus) (p : gmap string progress)
  : raftStatus :=
  mkRaftStatus (ID rs) (Term rs) (Vote rs) (Commit rs) (Lead rs)
    (RaftState rs) p.

(** The seconds slept in a trace. *)
Fixpoint totalSleep (w : trace) : N :=
  match w with
  | [] => 0
  | EvSleep n :: w' => n + totalSleep w'
  | _ :: w' => totalSleep w'
  end.

(** What [n] iterations print and sleep when no endpoint of [cl] gives a
    leader, the requests left out. *)
Fixpoint backoffs (cl : list string) (n : nat) : trace :=
  match n with
  | O => []
  | S n' => EvPrint (failedToConnect cl) :: EvSleep 10 :: backoffs cl n'
  end.

(** ** Test data *)

Module Examples.

Definition pr (m : N) : progress := mkProgress m (m + 1) "ProgressStateProbe".

Definition status (id lead : string) (commit : N)
    (p : list (string * progress)) : raftStatus :=
  mkRaftStatus id 2 id commit lead "StateLeader" (list_to_map p).

Definition ok (rs : raftStatus) : http_result :=
  Response 200 (Some (mkVars rs)).

Definition inOrder : nat -> gmap string progress -> list (string * progress) :=
  fun _ m => map_to_list m.

Definition s0 := status "A" "A" 100 [("A", pr 100); ("B", pr 95)].
Definition s1 := status "A" "A" 105 [("A", pr 105); ("B", pr 100)].

(** The example of the specification: both probes answered by the leader. *)
Definition healthyEnv : env :=
  mkEnv (fun n _ => match n with O => ok s0 | _ => ok s1 end) inOrder.

(** The same answers, with every map enumerated backwards. *)
Definition backwardsEnv : env :=
  mkEnv (httpAnswer healthyEnv) (fun _ m => rev (map_to_list m)).

(** The leader answers both probes, but its commit index and the match
    indexes of its followers stand still. *)
Definition stalledEnv : env :=
  mkEnv (fun _ _ => ok s0) inOrder.

Definition s1c := status "A" "A" 105 [("A", pr 105)].

(** Member B leaves the follower set between the two probes. *)
Definition changedEnv : env :=
  mkEnv (fun n _ => match n with O => ok s0 | _ => ok s1c end) inOrder.

(** Member C joins the follower set between the two probes. *)
Definition s1j :=
  status "A" "A" 105 [("A", pr 105); ("B", pr 100); ("C", pr 7)].

Definition joinedEnv : env :=
  mkEnv (fun n _ => match n with O => ok s0 | _ => ok s1j end) inOrder.

(** No endpoint can be reached. *)
Definition deadEnv : env :=
  mkEnv (fun _ _ => TransportError) inOrder.

(** The first request fails, every later one is answered by the leader with
    a fresh status. *)
Definition lateEnv : env :=
  mkEnv (fun n _ => match n with
                    | O => TransportError
                    | 1%nat => ok s0
                    | _ => ok s1
                    end) inOrder.

(** The leader answers the first probe and is gone at the second. *)
Definition lostEnv : env :=
  mkEnv (fun n _ => match n with O => ok s0 | _ => Response 503 None end)
        inOrder.

(** A follower of A, which does not report itself leader. *)
Definition f0 := status "B" "A" 100 [].

Definition one : list member := [mkMember ["http://a:2379"]].
Definition two : list member :=
  [mkMember ["http://a:2379"]; mkMember ["http://b:2379"]].

End Examples.

(** ** The monad *)

Lemma bind_Done {A B} (c : M A) (k : A -> M B) w a w' :
  c w = (Done a, w') -> bind c k w = k a w'.
Proof. unfold bind. intros ->. reflexivity. Qed.

Lemma bind_Exited {A B} (c : M A) (k : A -> M B) w code w' :
  c w = (Exited code, w') -> bind c k w = (Exited code, w').
Proof. unfold bind. intros ->. reflexivity. Qed.

Lemma nreqs_app w1 w2 : nreqs (w1 ++ w2) = (nreqs w1 + nreqs w2)%nat.
Proof. unfold nreqs. rewrite List.filter_app, length_app. reflexivity. Qed.

Lemma nreqs_get w u : nreqs (w ++ [EvGet u]) = S (nreqs w).
Proof. rewrite nreqs_app. cbn. lia. Qed.

(** ** The leader locator *)

Section Locator.

Variable E : env.

Lemma skipped_or_selfReports (r : http_result) :
  skipped r \/ exists rs, selfReports r rs.
Proof.
  destruct r as [|code [vs|]].
  - left; left; left; reflexivity.
  - destruct (decide (code = StatusOK)) as [->|Hc].
    + destruct (decide (Lead (RaftStatus vs) = ID (RaftStatus vs))) as [Hl|Hl].
      * right. exists (RaftStatus vs), vs. auto.
      * left; right. exists vs. auto.
    + left; left; right; left. eauto.
  - left; left; right; right. eauto.
Qed.

Lemma skipped_not_selfReports (r : http_result) rs :
  skipped r -> selfReports r rs -> False.
Proof.
  intros [[->|[(code & body & -> & Hc)|(code & ->)]]|(vs & -> & Hl)]
         (vs' & Heq & <- & Hl'); try discriminate; congruence.
Qed.

Lemma fetchVars_run ep w :
  fetchVars E ep w =
  (Done match httpAnswer E (nreqs w) (debugVars ep) with
        | TransportError => None
        | Response code body => if (code =? StatusOK)%Z then body else None
        end, w ++ [EvGet (debugVars ep)]).
Proof.
  unfold fetchVars, bind, httpGet, debugVars.
  destruct (httpAnswer E (nreqs w) (ep +:+ "/debug/vars")) as [|code body];
    [reflexivity|].
  destruct (code =? StatusOK)%Z; reflexivity.
Qed.

Lemma fetchVars_fails ep w :
  fetchFails (httpAnswer E (nreqs w) (debugVars ep)) ->
  fetchVars E ep w = (Done None, w ++ [EvGet (debugVars ep)]).
Proof.
  rewrite fetchVars_run.
  intros [->|[(code & body & -> & Hc)|(code & ->)]]; [reflexivity| |].
  - apply Z.eqb_neq in Hc. rewrite Hc. reflexivity.
  - destruct (code =? StatusOK)%Z; reflexivity.
Qed.

Lemma getLeaderStatus_skip ep rest w :
  skipped (httpAnswer E (nreqs w) (debugVars ep)) ->
  getLeaderStatus E (ep :: rest) w
  = getLeaderStatus E rest (w ++ [EvGet (debugVars ep)]).
Proof.
  intros [Hf|(vs & Hr & Hl)]; cbn [getLeaderStatus].
  - erewrite bind_Done by (apply fetchVars_fails, Hf). reflexivity.
  - erewrite bind_Done by apply fetchVars_run.
    rewrite Hr. cbn. apply String.eqb_neq in Hl. rewrite Hl. reflexivity.
Qed.

Lemma getLeaderStatus_hit ep rest w rs :
  selfReports (httpAnswer E (nreqs w) (debugVars ep)) rs ->
  getLeaderStatus E (ep :: rest) w
  = (Done (ep, rs, None), w ++ [EvGet (debugVars ep)]).
Proof.
  intros (vs & Hr & <- & Hl). cbn [getLeaderStatus].
  erewrite bind_Done by apply fetchVars_run.
  rewrite Hr. cbn. apply String.eqb_eq in Hl. rewrite Hl. reflexivity.
Qed.

End Locator.

Lemma selfReports_inj (r : http_result) rs rs' :
  selfReports r rs -> selfReports r rs' -> rs = rs'.
Proof. intros (vs & -> & <- & _) (vs' & [= <-] & <- & _). reflexivity. Qed.

Lemma selfReports_leader (r : http_result) rs :
  selfReports r rs -> Lead rs = ID rs.
Proof. intros (vs & _ & _ & Hl). exact Hl. Qed.

Lemma getLeaderStatus_found E eps : forall w ep rs w',
  getLeaderStatus E eps w = (Done (ep, rs, None), w') <->
  exists i : nat,
    eps !! i = Some ep
    /\ selfReports (httpAnswer E (nreqs w + i) (debugVars ep)) rs
    /\ (forall (j : nat) epj, (j < i)%nat -> eps !! j = Some epj ->
          skipped (httpAnswer E (nreqs w + j) (debugVars epj)))
    /\ w' = w ++ gets (take (S i) eps).
Proof.
  induction eps as [|a rest IH]; intros w ep rs w'.
  - split; [discriminate|]. intros (i & Hi & _). destruct i; discriminate.
  - destruct (skipped_or_selfReports (httpAnswer E (nreqs w) (debugVars a)))
      as [Hs|[rs0 Hr]].
    + rewrite (getLeaderStatus_skip E a rest w Hs), IH, nreqs_get. split.
      * intros (i & Hi & Hr & Hbefore & ->). exists (S i).
        split; [exact Hi|]. split.
        { replace (nreqs w + S i)%nat with (S (nreqs w) + i)%nat by lia.
          exact Hr. }
        split.
        { intros [|j] epj Hj Hl.
          - injection Hl as <-. rewrite Nat.add_0_r. exact Hs.
          - replace (nreqs w + S j)%nat with (S (nreqs w) + j)%nat by lia.
            apply Hbefore; [lia|exact Hl]. }
        rewrite <- app_assoc. reflexivity.
      * intros ([|i] & Hi & Hr & Hbefore & ->).
        { injection Hi as <-. rewrite Nat.add_0_r in Hr.
          destruct (skipped_not_selfReports _ _ Hs Hr). }
        exists i. split; [exact Hi|]. split.
        { replace (S (nreqs w) + i)%nat with (nreqs w + S i)%nat by lia.
          exact Hr. }
        split.
        { intros j epj Hj Hl.
          replace (S (nreqs w) + j)%nat with (nreqs w + S j)%nat by lia.
          apply Hbefore; [lia|exact Hl]. }
        rewrite <- app_assoc. reflexivity.
    + rewrite (getLeaderStatus_hit E a rest w rs0 Hr). split.
      * intros [= <- <- <-]. exists O.
        split; [reflexivity|]. rewrite Nat.add_0_r.
        split; [exact Hr|]. split; [intros j epj Hj; lia|reflexivity].
      * intros ([|i] & Hi & Hr' & Hbefore & ->).
        { injection Hi as <-. rewrite Nat.add_0_r in Hr'.
          rewrite (selfReports_inj _ _ _ Hr Hr'). reflexivity. }
        exfalso. apply (skipped_not_selfReports _ rs0 (Hbefore O a ltac:(lia) eq_refl)).
        rewrite Nat.add_0_r. exact Hr.
Qed.

Lemma getLeaderStatus_none E eps : forall w,
  (forall (i : nat) ep, eps !! i = Some ep ->
     skipped (httpAnswer E (nreqs w + i) (debugVars ep))) ->
  getLeaderStatus E eps w
  = (Done ("", raftStatus_zero, Some "no leader"), w ++ gets eps).
Proof.
  induction eps as [|a rest IH]; intros w Hall.
  - cbn. rewrite app_nil_r. reflexivity.
  - rewrite getLeaderStatus_skip.
    + rewrite IH.
      * cbn. rewrite <- app_assoc. reflexivity.
      * intros i ep Hi. rewrite nreqs_get.
        replace (S (nreqs w) + i)%nat with (nreqs w + S i)%nat by lia.
        apply Hall. exact Hi.
    + specialize (Hall O a eq_refl). rewrite Nat.add_0_r in Hall. exact Hall.
Qed.

(** Whatever the endpoints answer, the locator returns to its caller, having
    requested a prefix of the endpoints, each once and in order, and its
    error is [nil] exactly when it returns an endpoint. *)
Lemma getLeaderStatus_returns E eps : forall w,
  exists (k : nat) ep rs err,
    getLeaderStatus E eps w = (Done (ep, rs, err), w ++ gets (take k eps))
    /\ (err = None \/ (err = Some "no leader" /\ ep = ""
                       /\ rs = raftStatus_zero /\ k = length eps)).
Proof.
  induction eps as [|a rest IH]; intros w.
  - exists O, "", raftStatus_zero, (Some "no leader"). cbn.
    rewrite app_nil_r. split; [reflexivity|]. right. repeat split.
  - destruct (skipped_or_selfReports (httpAnswer E (nreqs w) (debugVars a)))
      as [Hs|[rs0 Hr]].
    + rewrite (getLeaderStatus_skip E a rest w Hs).
      destruct (IH (w ++ [EvGet (debugVars a)])) as (k & ep & rs & err & -> & H).
      exists (S k), ep, rs, err. rewrite <- app_assoc. split; [reflexivity|].
      destruct H as [H|(? & ? & ? & ->)]; [left; exact H|right; auto].
    + rewrite (getLeaderStatus_hit E a rest w rs0 Hr).
      exists 1%nat, a, rs0, None. cbn. rewrite take_0.
      split; [reflexivity|left; reflexivity].
Qed.

(** ** Sorting the rendered lines *)

Lemma sortStrings_Sorted l : Sorted String.le (sortStrings l).
Proof. apply (Sorted_merge_sort String.le). Qed.

Lemma sortStrings_Permutation l : sortStrings l ≡ₚ l.
Proof. apply (merge_sort_Permutation String.le). Qed.

(** The result of the sort depends on the lines only, not on their order. *)
Lemma sortStrings_order l1 l2 : l1 ≡ₚ l2 -> sortStrings l1 = sortStrings l2.
Proof.
  intros Hp. apply (Sorted_unique String.le); try apply sortStrings_Sorted.
  rewrite !sortStrings_Permutation. exact Hp.
Qed.

(** ** The progress evaluator *)

Lemma memberLoop_run items progress1 : forall prints w,
  memberLoop items progress1 prints w =
  if forallb (present progress1) items
  then (Done (prints ++ renderMembers items progress1), w)
  else (Exited 1, w ++ [EvPrint (configChanged +:+ newline)]).
Proof.
  induction items as [|[id pr0] rest IH]; intros prints w.
  - cbn. rewrite app_nil_r. reflexivity.
  - cbn [memberLoop forallb renderMembers omap list_omap].
    unfold present at 1, reportLine at 1. cbn [fst snd].
    destruct (progress1 !! id) as [pr1|]; cbn.
    + rewrite IH. rewrite <- app_assoc. reflexivity.
    + reflexivity.
Qed.

Lemma printAll_run prints : forall w,
  printAll prints w = (Done tt, w ++ map EvPrint prints).
Proof.
  induction prints as [|p rest IH]; intros w; cbn.
  - rewrite app_nil_r. reflexivity.
  - unfold bind, print, emit. rewrite IH, <- app_assoc. reflexivity.
Qed.

Lemma present_all_kept rs0 rs1 items :
  items ≡ₚ map_to_list (Progress rs0) ->
  forallb (present (Progress rs1)) items = true <-> membersKept rs0 rs1.
Proof.
  intros Hp. unfold membersKept.
  rewrite forallb_forall. split.
  - intros Hall id Hid. apply elem_of_dom in Hid as [pr0 Hpr0].
    apply elem_of_map_to_list in Hpr0. rewrite <- Hp in Hpr0.
    apply list_elem_of_In, Hall in Hpr0. unfold present in Hpr0. cbn in Hpr0.
    apply elem_of_dom. destruct (Progress rs1 !! id); [eauto|discriminate].
  - intros Hsub [id pr0] Hin. apply list_elem_of_In in Hin.
    rewrite Hp in Hin. apply elem_of_map_to_list in Hin.
    assert (id ∈ dom (Progress rs1)) as Hd.
    { apply Hsub, elem_of_dom. eauto. }
    apply elem_of_dom in Hd as [pr1 Hpr1]. unfold present. cbn.
    rewrite Hpr1. reflexivity.
Qed.

Lemma evaluate_run E forever rs0 rs1 w :
  evaluate E forever rs0 rs1 w =
  let items := rangeOrder E (length w + 2) (Progress rs0) in
  if forallb (present (Progress rs1)) items
  then (fst (afterReport forever),
        w ++ header rs0 rs1
          ++ map EvPrint (sortStrings (renderMembers items (Progress rs1)))
          ++ snd (afterReport forever))
  else (Exited 1, w ++ header rs0 rs1 ++ [EvPrint (configChanged +:+ newline)]).
Proof.
  unfold evaluate, bind, print, emit, rangeMap.
  rewrite memberLoop_run, !length_app. cbn [length app].
  replace (length w + 1 + 1)%nat with (length w + 2)%nat by lia.
  cbv zeta. destruct (forallb _ _).
  - rewrite printAll_run.
    unfold header, afterReport, sleep, ret, emit.
    destruct forever; cbn; rewrite <- ?app_assoc; cbn; rewrite ?app_nil_r;
      reflexivity.
  - unfold header. rewrite <- !app_assoc. reflexivity.
Qed.

Lemma evaluate_complete E forever rs0 rs1 w :
  env_ok E -> membersKept rs0 rs1 ->
  evaluate E forever rs0 rs1 w =
  (fst (afterReport forever),
   w ++ header rs0 rs1 ++ map EvPrint (memberReport rs0 rs1)
     ++ snd (afterReport forever)).
Proof.
  intros Hok Hkept. rewrite evaluate_run. cbv zeta.
  pose proof (Hok (length w + 2)%nat (Progress rs0)) as Hp.
  rewrite (proj2 (present_all_kept rs0 rs1 _ Hp) Hkept).
  unfold memberReport.
  rewrite (sortStrings_order _ (renderMembers (map_to_list (Progress rs0)) (Progress rs1)))
    by (unfold renderMembers; rewrite Hp; reflexivity).
  reflexivity.
Qed.

Lemma evaluate_config_change E forever rs0 rs1 w :
  env_ok E -> ~ membersKept rs0 rs1 ->
  evaluate E forever rs0 rs1 w =
  (Exited 1, w ++ header rs0 rs1 ++ [EvPrint (configChanged +:+ newline)]).
Proof.
  intros Hok Hlost. rewrite evaluate_run. cbv zeta.
  pose proof (Hok (length w + 2)%nat (Progress rs0)) as Hp.
  destruct (forallb _ _) eqn:Hall; [|reflexivity].
  destruct Hlost. apply (present_all_kept rs0 rs1 _ Hp). exact Hall.
Qed.

Lemma requested_app w1 w2 : requested (w1 ++ w2) = requested w1 ++ requested w2.
Proof. unfold requested. apply omap_app. Qed.

Lemma requested_prints l : requested (map EvPrint l) = [].
Proof. induction l; [reflexivity|exact IHl]. Qed.


(** The evaluator sends no request. *)
Lemma evaluate_requested E forever rs0 rs1 w :
  requested (snd (evaluate E forever rs0 rs1 w)) = requested w.
Proof.
  rewrite evaluate_run. cbv zeta. destruct (forallb _ _); cbn [snd].
  - rewrite !requested_app, requested_prints.
    destruct forever; cbn; rewrite app_nil_r; reflexivity.
  - rewrite !requested_app. cbn. rewrite app_nil_r. reflexivity.
Qed.

(** ** The monitoring loop *)

Lemma getLeaderStatus_single E ep w :
  exists ep' rs err,
    getLeaderStatus E [ep] w = (Done (ep', rs, err), w ++ [EvGet (debugVars ep)]).
Proof.
  cbn [getLeaderStatus]. unfold bind. rewrite fetchVars_run.
  destruct (match httpAnswer E (nreqs w) (debugVars ep) with
            | TransportError => None
            | Response code body => if (code =? StatusOK)%Z then body else None
            end) as [vs|]; [|cbn; eauto].
  destruct (negb _); cbn; eauto.
Qed.

Lemma cycle_initial_failure E forever cl w ep rs e w1 :
  getLeaderStatus E cl w = (Done (ep, rs, Some e), w1) ->
  cycle E forever cl w =
  (if forever then Done Continue else Exited 1,
   w1 ++ EvPrint (failedToConnect cl)
      :: (if forever then [EvSleep 10] else [])).
Proof.
  intros H. unfold cycle. rewrite (bind_Done _ _ _ _ _ H).
  unfold probeFailed, bind, println, print, sleep, emit, osExit, ret.
  destruct forever; cbn; rewrite <- ?app_assoc; reflexivity.
Qed.

Lemma cycle_followup_failure E forever cl w ep rs0 w1 ep' rs1 e w2 :
  getLeaderStatus E cl w = (Done (ep, rs0, None), w1) ->
  getLeaderStatus E [ep] (w1 ++ [EvSleep 1]) = (Done (ep', rs1, Some e), w2) ->
  cycle E forever cl w =
  (if forever then Done Continue else Exited 1,
   w2 ++ EvPrint ("cluster is unhealthy" +:+ newline)
      :: (if forever then [EvSleep 10] else [])).
Proof.
  intros H0 H1. unfold cycle. rewrite (bind_Done _ _ _ _ _ H0).
  unfold sleep at 1. unfold emit at 1. unfold bind at 1.
  rewrite (bind_Done _ _ _ _ _ H1).
  unfold probeFailed, bind, println, print, sleep, emit, osExit, ret.
  destruct forever; cbn; rewrite <- ?app_assoc; reflexivity.
Qed.

Lemma cycle_evaluate E forever cl w ep rs0 w1 ep' rs1 w2 :
  getLeaderStatus E cl w = (Done (ep, rs0, None), w1) ->
  getLeaderStatus E [ep] (w1 ++ [EvSleep 1]) = (Done (ep', rs1, None), w2) ->
  cycle E forever cl w = evaluate E forever rs0 rs1 w2.
Proof.
  intros H0 H1. unfold cycle. rewrite (bind_Done _ _ _ _ _ H0).
  unfold sleep at 1. unfold emit at 1. unfold bind at 1.
  rewrite (bind_Done _ _ _ _ _ H1). reflexivity.
Qed.

Lemma loop_step E fuel forever cl w :
  loop E (S fuel) forever cl w =
  match cycle E forever cl w with
  | (Done Return, w') => (Done (Some tt), w')
  | (Done Continue, w') => loop E fuel forever cl w'
  | (Exited code, w') => (Exited code, w')
  end.
Proof.
  cbn [loop]. unfold bind.
  destruct (cycle E forever cl w) as [[[|]|code] w']; reflexivity.
Qed.

(** In continuous mode no iteration ends with [return]: the loop is left
    through [os.Exit] only. *)
Lemma cycle_forever_no_return E cl w :
  fst (cycle E true cl w) <> Done Return.
Proof.
  destruct (getLeaderStatus_returns E cl w) as (k & ep & rs0 & [e|] & H0 & _).
  - rewrite (cycle_initial_failure E true cl w ep rs0 e _ H0). discriminate.
  - destruct (getLeaderStatus_single E ep ((w ++ gets (take k cl)) ++ [EvSleep 1]))
      as (ep' & rs1 & [e|] & H1).
    + rewrite (cycle_followup_failure E true cl w ep rs0 _ ep' rs1 e _ H0 H1).
      discriminate.
    + rewrite (cycle_evaluate E true cl w ep rs0 _ ep' rs1 _ H0 H1).
      rewrite evaluate_run. cbv zeta. destruct (forallb _ _); discriminate.
Qed.

Lemma loop_forever_no_return E cl fuel : forall w,
  fst (loop E fuel true cl w) <> Done (Some tt).
Proof.
  induction fuel as [|fuel IH]; intros w; [discriminate|].
  rewrite loop_step. pose proof (cycle_forever_no_return E cl w) as Hc.
  destruct (cycle E true cl w) as [[[|]|code] w']; cbn in Hc.
  - apply IH.
  - congruence.
  - discriminate.
Qed.

(** In one-shot mode the first iteration is the last: the handler has
    returned or the process has exited. *)
Lemma cycle_one_shot_no_continue E cl w :
  fst (cycle E false cl w) <> Done Continue.
Proof.
  destruct (getLeaderStatus_returns E cl w) as (k & ep & rs0 & [e|] & H0 & _).
  - rewrite (cycle_initial_failure E false cl w ep rs0 e _ H0). discriminate.
  - destruct (getLeaderStatus_single E ep ((w ++ gets (take k cl)) ++ [EvSleep 1]))
      as (ep' & rs1 & [e|] & H1).
    + rewrite (cycle_followup_failure E false cl w ep rs0 _ ep' rs1 e _ H0 H1).
      discriminate.
    + rewrite (cycle_evaluate E false cl w ep rs0 _ ep' rs1 _ H0 H1).
      rewrite evaluate_run. cbv zeta. destruct (forallb _ _); discriminate.
Qed.

Lemma one_shot_terminates E cl fuel w :
  exists status,
    exitStatus (fst (loop E (S fuel) false cl w)) = Some status.
Proof.
  rewrite loop_step. pose proof (cycle_one_shot_no_continue E cl w) as Hc.
  destruct (cycle E false cl w) as [[[|]|code] w']; cbn in Hc |- *.
  - congruence.
  - eauto.
  - eauto.
Qed.

(** ** Properties of the leader locator *)

(** C5. Over an ordered list of endpoints the locator returns, with a [nil]
    error, exactly the first endpoint in input order whose answer is a
    decoded status that reports itself leader, together with that status,
    after it skipped every earlier endpoint (each of them failed or named
    another leader) and without asking any later one; in particular, when
    the first endpoint reports itself leader it is the one returned whatever
    the second answers. A status it returns always has [Lead = ID]. *)
Theorem getLeaderStatus_first_self_reported_leader E eps w :
  (forall ep rs w',
     getLeaderStatus E eps w = (Done (ep, rs, None), w') <->
     exists i : nat,
       eps !! i = Some ep
       /\ selfReports (httpAnswer E (nreqs w + i) (debugVars ep)) rs
       /\ (forall (j : nat) epj, (j < i)%nat -> eps !! j = Some epj ->
             skipped (httpAnswer E (nreqs w + j) (debugVars epj)))
       /\ w' = w ++ gets (take (S i) eps))
  /\ (forall ep1 rest rs,
        eps = ep1 :: rest ->
        selfReports (httpAnswer E (nreqs w) (debugVars ep1)) rs ->
        getLeaderStatus E eps w
        = (Done (ep1, rs, None), w ++ [EvGet (debugVars ep1)]))
  /\ (forall ep rs err w',
        getLeaderStatus E eps w = (Done (ep, rs, err), w') ->
        err = None -> Lead rs = ID rs).
Proof.
  split; [|split].
  - intros ep rs w'. apply getLeaderStatus_found.
  - intros ep1 rest rs -> Hr. apply getLeaderStatus_hit. exact Hr.
  - intros ep rs err w' H ->.
    apply getLeaderStatus_found in H as (i & _ & Hr & _).
    exact (selfReports_leader _ _ Hr).
Qed.

(** C6. When every endpoint of the list either fails (transport error,
    status other than 200, body that does not decode) or answers with a
    status that names another leader, the locator asks each of them once, in
    order, and returns the "no leader" error with the empty endpoint and the
    zero status. *)
Theorem getLeaderStatus_no_leader E eps w :
  (forall (i : nat) ep, eps !! i = Some ep ->
     skipped (httpAnswer E (nreqs w + i) (debugVars ep))) ->
  getLeaderStatus E eps w
  = (Done ("", raftStatus_zero, Some "no leader"), w ++ gets eps).
Proof. apply getLeaderStatus_none. Qed.

Lemma getLeaderStatus_no_leader_witness :
  getLeaderStatus Examples.deadEnv ["http://a:2379"; "http://b:2379"] []
  = (Done ("", raftStatus_zero, Some "no leader"),
     [EvGet "http://a:2379/debug/vars"; EvGet "http://b:2379/debug/vars"]).
Proof.
  apply (getLeaderStatus_no_leader Examples.deadEnv
           ["http://a:2379"; "http://b:2379"] []).
  intros i ep _. left. left. reflexivity.
Defined.

(** C7. The fetch of one endpoint sends exactly one request. It yields the
    decoded document exactly when the transport answered, the status code is
    200 and the body decoded; it yields nothing exactly when one of the
    three failed, and then the locator goes on with the next endpoint, with
    nothing printed and no exit. The locator as a whole always returns to
    its caller and requests each endpoint at most once, in order. *)
Theorem fetchVars_unavailable_is_skipped E ep w :
  snd (fetchVars E ep w) = w ++ [EvGet (debugVars ep)]
  /\ (forall vs,
        fst (fetchVars E ep w) = Done (Some vs) <->
        httpAnswer E (nreqs w) (debugVars ep) = Response StatusOK (Some vs))
  /\ (fst (fetchVars E ep w) = Done None <->
      fetchFails (httpAnswer E (nreqs w) (debugVars ep)))
  /\ (fetchFails (httpAnswer E (nreqs w) (debugVars ep)) ->
      forall rest,
        getLeaderStatus E (ep :: rest) w
        = getLeaderStatus E rest (w ++ [EvGet (debugVars ep)]))
  /\ (forall eps, exists (k : nat) ep' rs err,
        getLeaderStatus E eps w
        = (Done (ep', rs, err), w ++ gets (take k eps))).
Proof.
  rewrite fetchVars_run. cbn [fst snd].
  split; [reflexivity|]. split; [|split; [|split]].
  - intros vs.
    destruct (httpAnswer E (nreqs w) (debugVars ep)) as [|code body].
    + split; discriminate.
    + destruct (Z.eqb_spec code StatusOK) as [->|Hc].
      * split; [intros [= ->]; reflexivity|intros [= ->]; reflexivity].
      * split; [discriminate|intros [= -> _]; congruence].
  - destruct (httpAnswer E (nreqs w) (debugVars ep)) as [|code body].
    + split; [left; reflexivity|reflexivity].
    + destruct (Z.eqb_spec code StatusOK) as [->|Hc].
      * split.
        { intros [= ->]. right. right. eauto. }
        { intros [H|[(c & b & [= <- <-] & Hc)|(c & [= <- <-])]];
            [discriminate|congruence|reflexivity]. }
      * split; [|reflexivity]. intros _. right. left. eauto.
  - intros Hf rest. apply getLeaderStatus_skip. left. exact Hf.
  - intros eps. destruct (getLeaderStatus_returns E eps w)
      as (k & ep' & rs & err & H & _). eauto.
Qed.

(** The second endpoint is returned when the first does not respond, and
    the first when both report themselves leader. *)
Example locator_skips_unreachable_endpoint :
  getLeaderStatus Examples.lateEnv ["http://a:2379"; "http://b:2379"] []
  = (Done ("http://b:2379", Examples.s0, None),
     [EvGet "http://a:2379/debug/vars"; EvGet "http://b:2379/debug/vars"]).
Proof. reflexivity. Qed.

Example locator_takes_first_of_two_leaders :
  getLeaderStatus Examples.healthyEnv ["http://a:2379"; "http://b:2379"] []
  = (Done ("http://a:2379", Examples.s0, None),
     [EvGet "http://a:2379/debug/vars"]).
Proof. reflexivity. Qed.

Example locator_skips_follower :
  getLeaderStatus
    (mkEnv (fun n _ => match n with
                       | O => Examples.ok Examples.f0
                       | _ => Examples.ok Examples.s0
                       end) Examples.inOrder)
    ["http://b:2379"; "http://a:2379"] []
  = (Done ("http://a:2379", Examples.s0, None),
     [EvGet "http://b:2379/debug/vars"; EvGet "http://a:2379/debug/vars"]).
Proof. reflexivity. Qed.

(** ** Properties of the monitoring loop *)

Lemma getLeaderStatus_error_trace E eps w ep rs e w1 :
  getLeaderStatus E eps w = (Done (ep, rs, Some e), w1) -> w1 = w ++ gets eps.
Proof.
  intros H.
  destruct (getLeaderStatus_returns E eps w)
    as (k & ep' & rs' & err & H' & [->|(-> & -> & -> & ->)]).
  - rewrite H in H'. discriminate.
  - rewrite H in H'. injection H' as _ _ _ ->.
    rewrite firstn_all. reflexivity.
Qed.

(** C8. When the initial probe finds no leader, the iteration prints the
    "failed to connect" line after having asked every endpoint; in
    continuous mode it then sleeps 10 seconds and the loop starts its next
    iteration, again on the full list of endpoints, while in one-shot mode
    the process exits with status 1 without sleeping. When the initial probe
    returns endpoint [ep], the follow-up probe, one second later, sends a
    single request, to [ep], and nothing else in the iteration sends one; if
    it fails, "cluster is unhealthy" is printed and the same two ways out
    are taken. *)
Theorem probe_failure_backoff_or_exit E cl w :
  (forall ep rs e w1,
     getLeaderStatus E cl w = (Done (ep, rs, Some e), w1) ->
     w1 = w ++ gets cl
     /\ cycle E true cl w
        = (Done Continue, w1 ++ [EvPrint (failedToConnect cl); EvSleep 10])
     /\ (forall fuel,
           loop E (S fuel) true cl w
           = loop E fuel true cl
               (w1 ++ [EvPrint (failedToConnect cl); EvSleep 10]))
     /\ (forall fuel,
           loop E (S fuel) false cl w
           = (Exited 1, w1 ++ [EvPrint (failedToConnect cl)])))
  /\ (forall ep rs0 w1,
        getLeaderStatus E cl w = (Done (ep, rs0, None), w1) ->
        exists ep' rs1 err,
          getLeaderStatus E [ep] (w1 ++ [EvSleep 1])
          = (Done (ep', rs1, err), w1 ++ [EvSleep 1; EvGet (debugVars ep)])
          /\ (forall forever,
                requested (snd (cycle E forever cl w))
                = requested w1 ++ [debugVars ep])
          /\ (forall e, err = Some e ->
                let w2 := w1 ++ [EvSleep 1; EvGet (debugVars ep);
                                 EvPrint ("cluster is unhealthy" +:+ newline)] in
                cycle E true cl w = (Done Continue, w2 ++ [EvSleep 10])
                /\ (forall fuel,
                      loop E (S fuel) true cl w
                      = loop E fuel true cl (w2 ++ [EvSleep 10]))
                /\ (forall fuel,
                      loop E (S fuel) false cl w = (Exited 1, w2)))).
Proof.
  split.
  - intros ep rs e w1 H.
    split; [exact (getLeaderStatus_error_trace _ _ _ _ _ _ _ H)|].
    pose proof (cycle_initial_failure E true cl w ep rs e w1 H) as Ht.
    pose proof (cycle_initial_failure E false cl w ep rs e w1 H) as Hf.
    cbn in Ht, Hf.
    split; [exact Ht|]. split; intros fuel; rewrite loop_step.
    + rewrite Ht. reflexivity.
    + rewrite Hf. reflexivity.
  - intros ep rs0 w1 H0.
    destruct (getLeaderStatus_single E ep (w1 ++ [EvSleep 1]))
      as (ep' & rs1 & err & H1).
    rewrite <- app_assoc in H1. cbn [app] in H1.
    exists ep', rs1, err. split; [exact H1|].
    assert (w1 ++ [EvSleep 1; EvGet (debugVars ep)]
            = (w1 ++ [EvSleep 1]) ++ [EvGet (debugVars ep)]) as Hw
      by (rewrite <- app_assoc; reflexivity).
    split.
    + intros forever. destruct err as [e|].
      * rewrite (cycle_followup_failure E forever cl w ep rs0 w1 ep' rs1 e _ H0 H1).
        cbn [snd]. rewrite !requested_app.
        destruct forever; cbn; rewrite !app_nil_r; reflexivity.
      * rewrite (cycle_evaluate E forever cl w ep rs0 w1 ep' rs1 _ H0 H1).
        rewrite evaluate_requested, requested_app. reflexivity.
    + intros e ->. cbv zeta.
      assert (cycle E true cl w
              = (Done Continue,
                 (w1 ++ [EvSleep 1; EvGet (debugVars ep);
                         EvPrint ("cluster is unhealthy" +:+ newline)])
                 ++ [EvSleep 10])) as Ht.
      { rewrite (cycle_followup_failure E true cl w ep rs0 w1 ep' rs1 e _ H0 H1).
        rewrite <- !app_assoc. reflexivity. }
      assert (cycle E false cl w
              = (Exited 1,
                 w1 ++ [EvSleep 1; EvGet (debugVars ep);
                        EvPrint ("cluster is unhealthy" +:+ newline)])) as Hf.
      { rewrite (cycle_followup_failure E false cl w ep rs0 w1 ep' rs1 e _ H0 H1).
        rewrite <- !app_assoc. reflexivity. }
      split; [exact Ht|]. split; intros fuel; rewrite loop_step.
      * rewrite Ht. reflexivity.
      * rewrite Hf. reflexivity.
Qed.

(** ** Properties of the report *)

Lemma commitVerdict_Healthy rs0 rs1 :
  commitVerdict rs0 rs1 = Healthy <-> Commit rs0 < Commit rs1.
Proof.
  unfold commitVerdict. destruct (N.ltb_spec (Commit rs0) (Commit rs1)).
  - split; [intros _; assumption|reflexivity].
  - split; [discriminate|lia].
Qed.

Lemma commitVerdict_Unhealthy rs0 rs1 :
  commitVerdict rs0 rs1 = Unhealthy <-> Commit rs1 <= Commit rs0.
Proof.
  unfold commitVerdict. destruct (N.ltb_spec (Commit rs0) (Commit rs1)).
  - split; [discriminate|lia].
  - split; [intros _; assumption|reflexivity].
Qed.

Lemma matchVerdict_Healthy pr0 pr1 :
  matchVerdict pr0 pr1 = Healthy <-> Match pr0 < Match pr1.
Proof.
  unfold matchVerdict. destruct (N.leb_spec (Match pr1) (Match pr0)).
  - split; [discriminate|lia].
  - split; [intros _; assumption|reflexivity].
Qed.

Lemma matchVerdict_Unhealthy pr0 pr1 :
  matchVerdict pr0 pr1 = Unhealthy <-> Match pr1 <= Match pr0.
Proof.
  unfold matchVerdict. destruct (N.leb_spec (Match pr1) (Match pr0)).
  - split; [intros _; assumption|reflexivity].
  - split; [discriminate|lia].
Qed.

(** The text of a line tells its verdict. *)
Lemma overallLine_verdict v v' rs0 rs1 rs0' rs1' :
  overallLine v rs0 rs1 = overallLine v' rs0' rs1' -> v = v'.
Proof. destruct v, v'; cbn; intros H; solve [reflexivity|discriminate H]. Qed.

Lemma memberLine_verdict v v' id pr0 pr1 pr0' pr1' :
  memberLine v id pr0 pr1 = memberLine v' id pr0' pr1' -> v = v'.
Proof.
  destruct v, v'; try reflexivity; unfold memberLine; intros H;
    apply (inj (String.app "member ")) in H;
    apply (inj (String.app id)) in H; cbn in H; discriminate H.
Qed.

Lemma reportLine_present progress1 id pr0 pr1 :
  progress1 !! id = Some pr1 ->
  reportLine progress1 (id, pr0)
  = Some (memberLine (matchVerdict pr0 pr1) id pr0 pr1).
Proof. unfold reportLine. cbn. intros ->. reflexivity. Qed.

Lemma memberReport_Permutation rs0 rs1 :
  memberReport rs0 rs1
  ≡ₚ renderMembers (map_to_list (Progress rs0)) (Progress rs1).
Proof. apply sortStrings_Permutation. Qed.

Lemma memberReport_line rs0 rs1 id pr0 pr1 :
  Progress rs0 !! id = Some pr0 -> Progress rs1 !! id = Some pr1 ->
  In (memberLine (matchVerdict pr0 pr1) id pr0 pr1) (memberReport rs0 rs1).
Proof.
  intros H0 H1. apply list_elem_of_In. rewrite memberReport_Permutation.
  unfold renderMembers. apply list_elem_of_omap. exists (id, pr0).
  split; [apply elem_of_map_to_list, H0|apply reportLine_present, H1].
Qed.

(** One line for each entry of the first status, when all its members are
    in the second. *)
Lemma renderMembers_each items progress1 :
  forallb (present progress1) items = true ->
  Forall2 (fun item line =>
             exists pr1, progress1 !! item.1 = Some pr1
               /\ line = memberLine (matchVerdict item.2 pr1) item.1 item.2 pr1)
          items (renderMembers items progress1).
Proof.
  induction items as [|[id pr0] rest IH]; cbn [forallb]; intros H.
  - constructor.
  - apply andb_prop in H as [Hp Hrest].
    unfold renderMembers. cbn [omap list_omap].
    unfold present in Hp. unfold reportLine at 1. cbn [fst snd] in *.
    destruct (progress1 !! id) as [pr1|] eqn:Hl; [|discriminate].
    constructor; [exists pr1; split; [exact Hl|reflexivity]|apply IH, Hrest].
Qed.

(** A member that is not among the items does not matter. *)
Lemma present_delete items progress1 id :
  id ∉ items.*1 ->
  forallb (present (delete id progress1)) items
  = forallb (present progress1) items.
Proof.
  induction items as [|[id' pr0] rest IH]; cbn; intros Hn; [reflexivity|].
  apply not_elem_of_cons in Hn as [Hne Hn]. rewrite (IH Hn).
  unfold present. cbn. rewrite lookup_delete_ne by exact Hne. reflexivity.
Qed.

Lemma renderMembers_delete items progress1 id :
  id ∉ items.*1 ->
  renderMembers items (delete id progress1) = renderMembers items progress1.
Proof.
  unfold renderMembers.
  induction items as [|[id' pr0] rest IH]; cbn; intros Hn; [reflexivity|].
  apply not_elem_of_cons in Hn as [Hne Hn]. rewrite (IH Hn).
  unfold reportLine. cbn. rewrite lookup_delete_ne by exact Hne. reflexivity.
Qed.

Lemma rangeOrder_keys E t m id :
  env_ok E -> m !! id = None -> id ∉ (rangeOrder E t m).*1.
Proof.
  intros Hok Hnone Hin. apply list_elem_of_fmap in Hin as ([id' pr0] & -> & Hin).
  rewrite (Hok t m) in Hin. apply elem_of_map_to_list in Hin.
  cbn in Hnone. congruence.
Qed.

Lemma membersKept_dec rs0 rs1 : {membersKept rs0 rs1} + {~ membersKept rs0 rs1}.
Proof. unfold membersKept. apply (decide _). Qed.

(** The report does not depend on the order in which the entries of
    [rs0.Progress] are enumerated. *)
Lemma evaluate_any_order E E' forever rs0 rs1 w :
  env_ok E -> env_ok E' ->
  evaluate E' forever rs0 rs1 w = evaluate E forever rs0 rs1 w.
Proof.
  intros Hok Hok'. destruct (membersKept_dec rs0 rs1) as [Hk|Hk].
  - rewrite !evaluate_complete by assumption. reflexivity.
  - rewrite !evaluate_config_change by assumption. reflexivity.
Qed.

Lemma not_membersKept rs0 rs1 id :
  is_Some (Progress rs0 !! id) -> Progress rs1 !! id = None ->
  ~ membersKept rs0 rs1.
Proof.
  intros H0 H1 Hk. apply elem_of_dom in H0. apply Hk in H0.
  apply elem_of_dom in H0 as [pr1 H0]. congruence.
Qed.

(** C3. The first line of every report gives the overall verdict. It reads
    "cluster is healthy: raft is making progress [commit index: c0->c1]"
    exactly when the commit index [c1] of the second status is greater than
    the commit index [c0] of the first, and otherwise
    "cluster is unhealthy: raft is not making progress [commit index: c0]",
    which shows the commit index of the first status. *)
Theorem overall_verdict_follows_commit E forever rs0 rs1 w :
  exists v rest,
    snd (evaluate E forever rs0 rs1 w)
    = w ++ EvPrint (overallLine v rs0 rs1) :: rest
    /\ (v = Healthy <-> Commit rs0 < Commit rs1)
    /\ (v = Unhealthy <-> Commit rs1 <= Commit rs0)
    /\ (v = Healthy ->
        overallLine v rs0 rs1
        = "cluster is healthy: raft is making progress [commit index: "
          +:+ fmtUint (Commit rs0) +:+ "->" +:+ fmtUint (Commit rs1)
          +:+ "]" +:+ newline)
    /\ (v = Unhealthy ->
        overallLine v rs0 rs1
        = "cluster is unhealthy: raft is not making progress [commit index: "
          +:+ fmtUint (Commit rs0) +:+ "]" +:+ newline)
    /\ (forall v', overallLine v' rs0 rs1 = overallLine v rs0 rs1 -> v' = v).
Proof.
  exists (commitVerdict rs0 rs1).
  assert (exists rest, snd (evaluate E forever rs0 rs1 w)
            = w ++ EvPrint (overallLine (commitVerdict rs0 rs1) rs0 rs1) :: rest)
    as [rest Hrest].
  { rewrite evaluate_run. cbv zeta. unfold header.
    destruct (forallb _ _); cbn [snd app]; eexists; reflexivity. }
  exists rest. split; [exact Hrest|].
  split; [apply commitVerdict_Healthy|].
  split; [apply commitVerdict_Unhealthy|].
  split; [intros ->; reflexivity|].
  split; [intros ->; reflexivity|].
  intros v'. apply overallLine_verdict.
Qed.

(** C4. For a member [id] that is in the progress maps of both statuses,
    with match indexes [m0] and [m1], the line the loop renders reads
    "member id is healthy: raft is making progress [match: m0->m1]" exactly
    when [m1] is greater than [m0], and
    "member id is unhealthy: raft is not making progress [match: m0->m1]"
    when [m1] is equal or smaller; when the report runs to its end, that
    line is among the lines printed after the two header lines. *)
Theorem member_verdict_follows_match E forever rs0 rs1 w id pr0 pr1 :
  env_ok E ->
  Progress rs0 !! id = Some pr0 ->
  Progress rs1 !! id = Some pr1 ->
  exists v,
    (v = Healthy <-> Match pr0 < Match pr1)
    /\ (v = Unhealthy <-> Match pr1 <= Match pr0)
    /\ (v = Healthy ->
        memberLine v id pr0 pr1
        = "member " +:+ id +:+ " is healthy: raft is making progress [match: "
          +:+ fmtUint (Match pr0) +:+ "->" +:+ fmtUint (Match pr1)
          +:+ "]" +:+ newline)
    /\ (v = Unhealthy ->
        memberLine v id pr0 pr1
        = "member " +:+ id
          +:+ " is unhealthy: raft is not making progress [match: "
          +:+ fmtUint (Match pr0) +:+ "->" +:+ fmtUint (Match pr1)
          +:+ "]" +:+ newline)
    /\ (forall rest prints w',
          memberLoop ((id, pr0) :: rest) (Progress rs1) prints w'
          = memberLoop rest (Progress rs1)
              (prints ++ [memberLine v id pr0 pr1]) w')
    /\ (membersKept rs0 rs1 ->
        exists before after,
          snd (evaluate E forever rs0 rs1 w)
          = w ++ header rs0 rs1 ++ map EvPrint before
              ++ EvPrint (memberLine v id pr0 pr1) :: after)
    /\ (forall v', memberLine v' id pr0 pr1 = memberLine v id pr0 pr1 ->
                   v' = v).
Proof.
  intros Hok H0 H1. exists (matchVerdict pr0 pr1).
  split; [apply matchVerdict_Healthy|].
  split; [apply matchVerdict_Unhealthy|].
  split; [intros ->; reflexivity|].
  split; [intros ->; reflexivity|].
  split; [|split].
  - intros rest prints w'. cbn [memberLoop]. rewrite H1. reflexivity.
  - intros Hk. rewrite (evaluate_complete E forever rs0 rs1 w Hok Hk).
    cbn [snd].
    destruct (in_split _ _ (memberReport_line rs0 rs1 id pr0 pr1 H0 H1))
      as (l1 & l2 & ->).
    exists l1, (map EvPrint l2 ++ snd (afterReport forever)).
    rewrite map_app. cbn [map]. rewrite <- !app_assoc. reflexivity.
  - intros v'. apply memberLine_verdict.
Qed.

Lemma member_verdict_follows_match_witness :
  exists v,
    (v = Healthy <-> 95 < 100)
    /\ (v = Unhealthy <-> 100 <= 95)
    /\ (v = Healthy ->
        memberLine v "B" (Examples.pr 95) (Examples.pr 100)
        = "member B is healthy: raft is making progress [match: 95->100]"
          +:+ newline)
    /\ (v = Unhealthy ->
        memberLine v "B" (Examples.pr 95) (Examples.pr 100)
        = "member B is unhealthy: raft is not making progress [match: 95->100]"
          +:+ newline)
    /\ (forall rest prints w',
          memberLoop (("B", Examples.pr 95) :: rest)
            (Progress Examples.s1) prints w'
          = memberLoop rest (Progress Examples.s1)
              (prints ++ [memberLine v "B" (Examples.pr 95) (Examples.pr 100)])
              w')
    /\ (membersKept Examples.s0 Examples.s1 ->
        exists before after,
          snd (evaluate Examples.healthyEnv false Examples.s0 Examples.s1 [])
          = [] ++ header Examples.s0 Examples.s1 ++ map EvPrint before
              ++ EvPrint (memberLine v "B" (Examples.pr 95) (Examples.pr 100))
              :: after)
    /\ (forall v',
          memberLine v' "B" (Examples.pr 95) (Examples.pr 100)
          = memberLine v "B" (Examples.pr 95) (Examples.pr 100) -> v' = v).
Proof.
  apply (member_verdict_follows_match Examples.healthyEnv false
           Examples.s0 Examples.s1 [] "B" (Examples.pr 95) (Examples.pr 100)).
  - intros t m. reflexivity.
  - reflexivity.
  - reflexivity.
Defined.

(** C9. The member lines are rendered first and sorted afterwards: what is
    printed after the two header lines is the rendered lines of the
    enumeration put in increasing byte-wise lexicographic order of their
    text. The printed list is therefore the same for every order in which
    the entries of the map can be enumerated, and so is the whole outcome of
    the evaluation. *)
Theorem member_lines_sorted_by_text E forever rs0 rs1 w :
  env_ok E ->
  (forall E', env_ok E' ->
     evaluate E' forever rs0 rs1 w = evaluate E forever rs0 rs1 w)
  /\ (membersKept rs0 rs1 ->
      evaluate E forever rs0 rs1 w
      = (fst (afterReport forever),
         w ++ header rs0 rs1 ++ map EvPrint (memberReport rs0 rs1)
           ++ snd (afterReport forever))
      /\ memberReport rs0 rs1
         = sortStrings (renderMembers
                          (rangeOrder E (length w + 2) (Progress rs0))
                          (Progress rs1))
      /\ Sorted String.le (memberReport rs0 rs1)
      /\ memberReport rs0 rs1
         ≡ₚ renderMembers (rangeOrder E (length w + 2) (Progress rs0))
              (Progress rs1)
      /\ (forall items,
            items ≡ₚ map_to_list (Progress rs0) ->
            sortStrings (renderMembers items (Progress rs1))
            = memberReport rs0 rs1)).
Proof.
  intros Hok. split.
  - intros E' Hok'. apply evaluate_any_order; assumption.
  - intros Hk.
    assert (forall items,
              items ≡ₚ map_to_list (Progress rs0) ->
              sortStrings (renderMembers items (Progress rs1))
              = memberReport rs0 rs1) as Hany.
    { intros items Hp. unfold memberReport. apply sortStrings_order.
      unfold renderMembers. rewrite Hp. reflexivity. }
    split; [apply evaluate_complete; assumption|].
    split; [symmetry; apply Hany, Hok|].
    split; [apply sortStrings_Sorted|].
    split; [|exact Hany].
    rewrite <- (Hany _ (Hok (length w + 2)%nat (Progress rs0))).
    apply sortStrings_Permutation.
Qed.

Lemma member_lines_sorted_by_text_witness :
  evaluate Examples.backwardsEnv false Examples.s0 Examples.s1 []
  = evaluate Examples.healthyEnv false Examples.s0 Examples.s1 [].
Proof.
  refine (proj1 (member_lines_sorted_by_text Examples.healthyEnv false
                   Examples.s0 Examples.s1 [] _) Examples.backwardsEnv _).
  - intros t m. reflexivity.
  - intros t m. cbn. symmetry. apply Permutation_rev.
Defined.

(** The order is that of the text of the lines, not of the member ids: the
    line of member "10" comes before the line of member "9". *)
Example member_lines_order_is_textual :
  sortStrings
    (renderMembers [("9", Examples.pr 1); ("10", Examples.pr 1)]
       (list_to_map [("9", Examples.pr 2); ("10", Examples.pr 2)]))
  = ["member 10 is healthy: raft is making progress [match: 1->2]" +:+ newline;
     "member 9 is healthy: raft is making progress [match: 1->2]" +:+ newline].
Proof. vm_compute. reflexivity. Qed.

Lemma membersKept_delete rs0 rs1 id :
  Progress rs0 !! id = None ->
  membersKept rs0 rs1
  <-> membersKept rs0 (withProgress rs1 (delete id (Progress rs1))).
Proof.
  intros Hnone. unfold membersKept. cbn [Progress withProgress].
  rewrite dom_delete_L. apply not_elem_of_dom in Hnone. set_solver.
Qed.

(** C10. A member that is not in the progress map of the first status is
    never looked at: the evaluation of [rs0] against [rs1] is, in result and
    in everything printed, the evaluation against [rs1] with that member
    removed; it neither raises nor prevents the configuration-change exit,
    and the overall verdict is unchanged. When the report runs to its end,
    the rendered lines are, one for one, the lines of the entries of
    [rs0.Progress]. *)
Theorem joined_member_is_ignored E forever rs0 rs1 w id :
  env_ok E ->
  Progress rs0 !! id = None ->
  let rs1' := withProgress rs1 (delete id (Progress rs1)) in
  evaluate E forever rs0 rs1 w = evaluate E forever rs0 rs1' w
  /\ (membersKept rs0 rs1 <-> membersKept rs0 rs1')
  /\ commitVerdict rs0 rs1 = commitVerdict rs0 rs1'
  /\ (membersKept rs0 rs1 ->
      snd (evaluate E forever rs0 rs1 w)
      = w ++ header rs0 rs1 ++ map EvPrint (memberReport rs0 rs1)
          ++ snd (afterReport forever)
      /\ memberReport rs0 rs1
         ≡ₚ renderMembers (map_to_list (Progress rs0)) (Progress rs1)
      /\ Forall2
           (fun item line =>
              exists pr1, Progress rs1 !! item.1 = Some pr1
                /\ line = memberLine (matchVerdict item.2 pr1)
                            item.1 item.2 pr1)
           (map_to_list (Progress rs0))
           (renderMembers (map_to_list (Progress rs0)) (Progress rs1))).
Proof.
  intros Hok Hnone rs1'. split; [|split; [|split]].
  - rewrite !evaluate_run. cbv zeta. subst rs1'.
    cbn [Progress withProgress].
    pose proof (rangeOrder_keys E (length w + 2) _ id Hok Hnone) as Hkeys.
    rewrite (present_delete _ _ _ Hkeys), (renderMembers_delete _ _ _ Hkeys).
    reflexivity.
  - apply membersKept_delete, Hnone.
  - reflexivity.
  - intros Hk. rewrite (evaluate_complete E forever rs0 rs1 w Hok Hk).
    split; [reflexivity|]. split; [apply memberReport_Permutation|].
    apply renderMembers_each.
    apply (present_all_kept rs0 rs1); [reflexivity|exact Hk].
Qed.

Lemma joined_member_is_ignored_witness :
  evaluate Examples.joinedEnv true Examples.s0 Examples.s1j []
  = evaluate Examples.joinedEnv true Examples.s0
      (withProgress Examples.s1j (delete "C" (Progress Examples.s1j))) [].
Proof.
  refine (proj1 (joined_member_is_ignored Examples.joinedEnv true
                   Examples.s0 Examples.s1j [] "C" _ _)).
  - intros t m. reflexivity.
  - reflexivity.
Defined.

Example joined_member_run :
  handleClusterHealth Examples.joinedEnv 1 false Examples.one []
  = handleClusterHealth Examples.healthyEnv 1 false Examples.one [].
Proof. vm_compute. reflexivity. Qed.

(** C2, as stated, fails: when member B is gone from the second status, the
    process exits with status 1, but the overall verdict and the leader have
    been printed before the configuration-change message. *)
Lemma config_change_comes_after_header :
  Progress Examples.s0 !! "B" = Some (Examples.pr 95)
  /\ Progress Examples.s1c !! "B" = None
  /\ fst (handleClusterHealth Examples.changedEnv 1 false Examples.one [])
     = Exited 1
  /\ printed (snd (handleClusterHealth Examples.changedEnv 1 false
                     Examples.one []))
     = [overallLine Healthy Examples.s0 Examples.s1c;
        leaderLine Examples.s0;
        configChanged +:+ newline]
  /\ printed (snd (handleClusterHealth Examples.changedEnv 1 false
                     Examples.one []))
     <> [configChanged +:+ newline].
Proof. vm_compute. repeat split; discriminate. Qed.

(** C2, amended. When a member of the progress map of the first status is
    missing from that of the second, the evaluation prints the overall
    verdict line and the leader line, then the configuration-change message,
    and the process exits with status 1, in one-shot and in continuous mode
    alike; no member line is printed and the loop does not go on. *)
Theorem config_change_exits_after_header
    E fuel forever cl w ep rs0 w1 ep' rs1 w2 id :
  env_ok E ->
  getLeaderStatus E cl w = (Done (ep, rs0, None), w1) ->
  getLeaderStatus E [ep] (w1 ++ [EvSleep 1]) = (Done (ep', rs1, None), w2) ->
  is_Some (Progress rs0 !! id) ->
  Progress rs1 !! id = None ->
  evaluate E forever rs0 rs1 w2
  = (Exited 1, w2 ++ header rs0 rs1 ++ [EvPrint (configChanged +:+ newline)])
  /\ loop E (S fuel) forever cl w
     = (Exited 1,
        w2 ++ header rs0 rs1 ++ [EvPrint (configChanged +:+ newline)]).
Proof.
  intros Hok H0 H1 Hin Hout.
  pose proof (evaluate_config_change E forever rs0 rs1 w2 Hok
                (not_membersKept rs0 rs1 id Hin Hout)) as Hev.
  split; [exact Hev|].
  rewrite loop_step, (cycle_evaluate E forever cl w ep rs0 w1 ep' rs1 w2 H0 H1).
  rewrite Hev. reflexivity.
Qed.

Lemma config_change_exits_after_header_witness :
  evaluate Examples.changedEnv true Examples.s0 Examples.s1c
    [EvGet "http://a:2379/debug/vars"; EvSleep 1;
     EvGet "http://a:2379/debug/vars"]
  = (Exited 1,
     [EvGet "http://a:2379/debug/vars"; EvSleep 1;
      EvGet "http://a:2379/debug/vars"]
     ++ header Examples.s0 Examples.s1c
     ++ [EvPrint (configChanged +:+ newline)])
  /\ loop Examples.changedEnv 3 true ["http://a:2379"] []
     = (Exited 1,
        [EvGet "http://a:2379/debug/vars"; EvSleep 1;
         EvGet "http://a:2379/debug/vars"]
        ++ header Examples.s0 Examples.s1c
        ++ [EvPrint (configChanged +:+ newline)]).
Proof.
  apply (config_change_exits_after_header Examples.changedEnv 2 true
           ["http://a:2379"] [] "http://a:2379" Examples.s0
           [EvGet "http://a:2379/debug/vars"] "http://a:2379" Examples.s1c
           [EvGet "http://a:2379/debug/vars"; EvSleep 1;
            EvGet "http://a:2379/debug/vars"] "B").
  - intros t m. reflexivity.
  - reflexivity.
  - reflexivity.
  - exists (Examples.pr 95). reflexivity.
  - reflexivity.
Defined.

(** In one-shot mode a report that runs to its end is followed by [return]:
    the handler never calls [os.Exit] on that path, whatever the verdicts. *)
Lemma one_shot_report_returns E fuel cl w ep rs0 w1 ep' rs1 w2 :
  env_ok E ->
  getLeaderStatus E cl w = (Done (ep, rs0, None), w1) ->
  getLeaderStatus E [ep] (w1 ++ [EvSleep 1]) = (Done (ep', rs1, None), w2) ->
  membersKept rs0 rs1 ->
  loop E (S fuel) false cl w
  = (Done (Some tt),
     w2 ++ header rs0 rs1 ++ map EvPrint (memberReport rs0 rs1)).
Proof.
  intros Hok H0 H1 Hk.
  rewrite loop_step, (cycle_evaluate E false cl w ep rs0 w1 ep' rs1 w2 H0 H1).
  rewrite (evaluate_complete E false rs0 rs1 w2 Hok Hk). cbn.
  rewrite app_nil_r. reflexivity.
Qed.

(** C1 does not hold of the code. In one-shot mode, with a leader whose
    commit index and whose followers' match indexes stand still, the handler
    prints the unhealthy verdicts and returns: the exit status is 0, where
    a failed probe in the same mode ends in [os.Exit(1)]. *)
Theorem one_shot_unhealthy_report_exits_zero :
  handleClusterHealth Examples.stalledEnv 1 false Examples.one []
  = (Done (Some tt),
     [EvGet "http://a:2379/debug/vars"; EvSleep 1;
      EvGet "http://a:2379/debug/vars";
      EvPrint ("cluster is unhealthy: raft is not making progress [commit index: 100]"
               +:+ newline);
      EvPrint ("leader is A" +:+ newline);
      EvPrint ("member A is unhealthy: raft is not making progress [match: 100->100]"
               +:+ newline);
      EvPrint ("member B is unhealthy: raft is not making progress [match: 95->95]"
               +:+ newline)])
  /\ exitStatus
       (fst (handleClusterHealth Examples.stalledEnv 1 false Examples.one []))
     = Some 0%Z
  /\ exitStatus
       (fst (handleClusterHealth Examples.lostEnv 1 false Examples.one []))
     = Some 1%Z
  /\ exitStatus
       (fst (handleClusterHealth Examples.deadEnv 1 false Examples.one []))
     = Some 1%Z.
Proof. vm_compute. repeat split. Qed.

(** The example of the specification, run in one-shot mode. *)
Example one_shot_healthy_run :
  handleClusterHealth Examples.healthyEnv 1 false Examples.one []
  = (Done (Some tt),
     [EvGet "http://a:2379/debug/vars"; EvSleep 1;
      EvGet "http://a:2379/debug/vars";
      EvPrint ("cluster is healthy: raft is making progress [commit index: 100->105]"
               +:+ newline);
      EvPrint ("leader is A" +:+ newline);
      EvPrint ("member A is healthy: raft is making progress [match: 100->105]"
               +:+ newline);
      EvPrint ("member B is healthy: raft is making progress [match: 95->100]"
               +:+ newline)]).
Proof. vm_compute. reflexivity. Qed.

(** Continuous mode with no reachable endpoint: every iteration asks both
    endpoints, prints the message and sleeps 10 seconds. *)
Example continuous_backoff_run :
  handleClusterHealth Examples.deadEnv 2 true Examples.two []
  = (Done None,
     [EvGet "http://a:2379/debug/vars"; EvGet "http://b:2379/debug/vars";
      EvPrint ("cluster may be unhealthy: failed to connect [http://a:2379 http://b:2379]"
               +:+ newline);
      EvSleep 10;
      EvGet "http://a:2379/debug/vars"; EvGet "http://b:2379/debug/vars";
      EvPrint ("cluster may be unhealthy: failed to connect [http://a:2379 http://b:2379]"
               +:+ newline);
      EvSleep 10]).
Proof. vm_compute. reflexivity. Qed.

(** The leader is lost between the two probes, one-shot mode. *)
Example one_shot_followup_failure_run :
  handleClusterHealth Examples.lostEnv 1 false Examples.two []
  = (Exited 1,
     [EvGet "http://a:2379/debug/vars"; EvSleep 1;
      EvGet "http://a:2379/debug/vars";
      EvPrint ("cluster is unhealthy" +:+ newline)]).
Proof. vm_compute. reflexivity. Qed.

(** ** Further properties of the handler *)

Lemma totalSleep_app w1 w2 :
  totalSleep (w1 ++ w2) = totalSleep w1 + totalSleep w2.
Proof.
  induction w1 as [|e w1 IH]; [reflexivity|].
  cbn. destruct e; rewrite IH; lia.
Qed.

Lemma totalSleep_gets eps : totalSleep (gets eps) = 0.
Proof. induction eps; [reflexivity|exact IHeps]. Qed.

Lemma totalSleep_prints l : totalSleep (map EvPrint l) = 0.
Proof. induction l; [reflexivity|exact IHl]. Qed.

(** The four ways an iteration can go, with what each adds to the trace. *)
Lemma cycle_cases E forever cl w :
  exists r t,
    cycle E forever cl w = (r, w ++ t)
    /\ ((exists ep rs e,
           getLeaderStatus E cl w = (Done (ep, rs, Some e), w ++ gets cl))
        /\ r = (if forever then Done Continue else Exited 1)
        /\ t = gets cl ++ EvPrint (failedToConnect cl)
                 :: (if forever then [EvSleep 10] else [])
        \/ exists (k : nat) ep rs0,
             cl !! k = Some ep
             /\ getLeaderStatus E cl w
                = (Done (ep, rs0, None), w ++ gets (take (S k) cl))
             /\ (r = (if forever then Done Continue else Exited 1)
                 /\ t = gets (take (S k) cl)
                        ++ [EvSleep 1; EvGet (debugVars ep);
                            EvPrint ("cluster is unhealthy" +:+ newline)]
                        ++ (if forever then [EvSleep 10] else [])
                 \/ (exists rs1 lines,
                       r = fst (afterReport forever)
                       /\ t = gets (take (S k) cl)
                              ++ [EvSleep 1; EvGet (debugVars ep)]
                              ++ header rs0 rs1 ++ map EvPrint lines
                              ++ snd (afterReport forever))
                 \/ (exists rs1,
                       r = Exited 1
                       /\ t = gets (take (S k) cl)
                              ++ [EvSleep 1; EvGet (debugVars ep)]
                              ++ header rs0 rs1
                              ++ [EvPrint (configChanged +:+ newline)]))).
Proof.
  destruct (getLeaderStatus_returns E cl w) as (k0 & ep & rs0 & [e|] & H0 & _).
  - pose proof (getLeaderStatus_error_trace _ _ _ _ _ _ _ H0) as Hw.
    rewrite Hw in H0.
    rewrite (cycle_initial_failure E forever cl w ep rs0 e _ H0).
    eexists _, _. split; [rewrite <- app_assoc; reflexivity|].
    left. split; [eauto|]. split; reflexivity.
  - pose proof (proj1 (getLeaderStatus_found E cl w ep rs0 _) H0)
      as (k & Hk & _ & _ & Hw).
    rewrite Hw in H0. clear Hw.
    destruct (getLeaderStatus_single E ep ((w ++ gets (take (S k) cl)) ++ [EvSleep 1]))
      as (ep' & rs1 & err & H1).
    destruct err as [e|].
    + rewrite (cycle_followup_failure E forever cl w ep rs0 _ ep' rs1 e _ H0 H1).
      eexists _, _. split.
      2:{ right. exists k, ep, rs0. split; [exact Hk|]. split; [exact H0|].
          left. split; reflexivity. }
      rewrite <- !app_assoc. reflexivity.
    + rewrite (cycle_evaluate E forever cl w ep rs0 _ ep' rs1 _ H0 H1).
      rewrite evaluate_run. cbv zeta. destruct (forallb _ _).
      * eexists _, _. split.
        2:{ right. exists k, ep, rs0. split; [exact Hk|]. split; [exact H0|].
            right. left. eexists rs1, _. split; reflexivity. }
        rewrite <- !app_assoc. reflexivity.
      * eexists _, _. split.
        2:{ right. exists k, ep, rs0. split; [exact Hk|]. split; [exact H0|].
            right. right. exists rs1. split; reflexivity. }
        rewrite <- !app_assoc. reflexivity.
Qed.

(** X1. In continuous mode the handler never returns, and the only way the
    loop ends by itself is the configuration-change exit: after any number
    of iterations the process is either still looping, or it has exited
    with status 1 and the last thing it did was to print the
    configuration-change message. Failed probes and unhealthy reports never
    end it. *)
Theorem continuous_ends_only_on_config_change E fuel cl : forall w,
  fst (loop E fuel true cl w) = Done None
  \/ (fst (loop E fuel true cl w) = Exited 1
      /\ last (snd (loop E fuel true cl w))
         = Some (EvPrint (configChanged +:+ newline))).
Proof.
  induction fuel as [|fuel IH]; intros w; [left; reflexivity|].
  rewrite loop_step.
  destruct (cycle_cases E true cl w)
    as (r & t & -> & [(_ & -> & _)|(k & ep & rs0 & _ & _
         & [(-> & _)|[(rs1 & lines & -> & _)|(rs1 & -> & ->)]])]);
    cbn [afterReport fst snd]; try apply IH.
  right. split; [reflexivity|].
  rewrite !app_assoc. apply last_snoc.
Qed.

Lemma cycle_continue_sleeps E cl w w' :
  cycle E true cl w = (Done Continue, w') ->
  totalSleep w + 10 <= totalSleep w' <= totalSleep w + 11.
Proof.
  destruct (cycle_cases E true cl w)
    as (r & t & -> & [(_ & -> & ->)|(k & ep & rs0 & _ & _
         & [(-> & ->)|[(rs1 & lines & -> & ->)|(rs1 & -> & ->)]])]);
    intros [= <-];
    rewrite ?totalSleep_app, ?totalSleep_gets, ?totalSleep_prints;
    cbn [totalSleep header afterReport snd app];
    rewrite ?totalSleep_app, ?totalSleep_gets, ?totalSleep_prints;
    cbn [totalSleep]; lia.
Qed.

(** X2. Continuous mode is paced by its sleeps: while the loop goes on,
    every iteration sleeps 10 seconds or, when the initial probe found a
    leader, 11 seconds, so [fuel] iterations take at least 10 and at most 11
    seconds each. *)
Theorem continuous_iterations_are_paced E fuel cl : forall w,
  fst (loop E fuel true cl w) = Done None ->
  totalSleep w + 10 * N.of_nat fuel
  <= totalSleep (snd (loop E fuel true cl w))
  <= totalSleep w + 11 * N.of_nat fuel.
Proof.
  induction fuel as [|fuel IH]; intros w.
  - cbn. lia.
  - rewrite loop_step.
    destruct (cycle E true cl w) as [[[|]|code] w'] eqn:Hc; try discriminate.
    intros Hgo. pose proof (cycle_continue_sleeps E cl w w' Hc).
    specialize (IH w' Hgo). lia.
Qed.

Lemma continuous_iterations_are_paced_witness :
  totalSleep [] + 10 * N.of_nat 2
  <= totalSleep (snd (loop Examples.healthyEnv 2 true ["http://a:2379"] []))
  <= totalSleep [] + 11 * N.of_nat 2.
Proof.
  apply (continuous_iterations_are_paced Examples.healthyEnv 2
           ["http://a:2379"] []).
  vm_compute. reflexivity.
Defined.

(** X3. A one-shot run sleeps exactly one second when its initial probe
    finds a leader and not at all when it does not: the 10-second pauses
    belong to continuous mode only. *)
Theorem one_shot_sleeps_between_probes_only E fuel cl w :
  totalSleep (snd (loop E (S fuel) false cl w))
  = totalSleep w
    + match getLeaderStatus E cl w with
      | (Done (_, _, None), _) => 1
      | _ => 0
      end.
Proof.
  rewrite loop_step.
  destruct (cycle_cases E false cl w)
    as (r & t & -> & [((ep & rs & e & ->) & -> & ->)|(k & ep & rs0 & _ & ->
         & [(-> & ->)|[(rs1 & lines & -> & ->)|(rs1 & -> & ->)]])]);
    cbn [afterReport fst snd];
    rewrite ?totalSleep_app, ?totalSleep_gets, ?totalSleep_prints;
    cbn [totalSleep header afterReport snd app];
    rewrite ?totalSleep_app, ?totalSleep_gets, ?totalSleep_prints;
    cbn [totalSleep]; lia.
Qed.





Lemma clientURLs_nil ms :
  (forall m, m ∈ ms -> ClientURLs m = []) -> clientURLs ms = [].
Proof.
  unfold clientURLs. induction ms as [|m ms IH]; intros H; [reflexivity|].
  cbn. rewrite (H m) by (apply elem_of_cons; left; reflexivity).
  apply IH. intros m' Hin. apply H. apply elem_of_cons. right. exact Hin.
Qed.

Lemma cycle_no_endpoint E forever w :
  cycle E forever [] w
  = (if forever then Done Continue else Exited 1,
     w ++ EvPrint (failedToConnect [])
       :: (if forever then [EvSleep 10] else [])).
Proof. apply (cycle_initial_failure E forever [] w "" raftStatus_zero "no leader"). reflexivity. Qed.

Lemma loop_no_endpoint E fuel : forall w,
  loop E fuel true [] w = (Done None, w ++ backoffs [] fuel).
Proof.
  induction fuel as [|fuel IH]; intros w.
  - cbn. rewrite app_nil_r. reflexivity.
  - rewrite loop_step, cycle_no_endpoint, IH.
    cbn [backoffs]. rewrite <- app_assoc. reflexivity.
Qed.

(** X5. When no member has a client URL (in particular when the member list
    is empty) the handler sends no request at all: in one-shot mode it
    prints "cluster may be unhealthy: failed to connect []" and exits with
    status 1; in continuous mode it prints that line and sleeps 10 seconds,
    over and over, and never ends. *)
Theorem no_client_url_fails_to_connect E fuel ms w :
  (forall m, m ∈ ms -> ClientURLs m = []) ->
  handleClusterHealth E (S fuel) false ms w
  = (Exited 1, w ++ [EvPrint (failedToConnect [])])
  /\ handleClusterHealth E fuel true ms w
     = (Done None, w ++ backoffs [] fuel)
  /\ failedToConnect []
     = "cluster may be unhealthy: failed to connect []" +:+ newline.
Proof.
  intros Hnone. unfold handleClusterHealth.
  rewrite (clientURLs_nil ms Hnone).
  split; [|split; [apply loop_no_endpoint|reflexivity]].
  rewrite loop_step, cycle_no_endpoint. reflexivity.
Qed.

Lemma no_client_url_fails_to_connect_witness :
  handleClusterHealth Examples.healthyEnv 1 false [mkMember []; mkMember []] []
  = (Exited 1, [] ++ [EvPrint (failedToConnect [])]).
Proof.
  refine (proj1 (no_client_url_fails_to_connect Examples.healthyEnv 0
                   [mkMember []; mkMember []] [] _)).
  intros m Hin.
  apply elem_of_cons in Hin as [->|Hin]; [reflexivity|].
  apply elem_of_cons in Hin as [->|Hin]; [reflexivity|].
  inversion Hin.
Defined.

(** X6. Probing a list of endpoints made of two parts is probing the first
    part and, only if that finds no leader, the second part from where the
    first left off: endpoints added at the end of the list never change a
    leader found before them, and are not even asked. *)
Theorem getLeaderStatus_app E l1 l2 : forall w,
  getLeaderStatus E (l1 ++ l2) w
  = match getLeaderStatus E l1 w with
    | (Done (_, _, Some _), w1) => getLeaderStatus E l2 w1
    | found => found
    end.
Proof.
  induction l1 as [|a rest IH]; intros w; [reflexivity|].
  change ((a :: rest) ++ l2) with (a :: (rest ++ l2)).
  destruct (skipped_or_selfReports (httpAnswer E (nreqs w) (debugVars a)))
    as [Hs|[rs Hr]].
  - rewrite !(getLeaderStatus_skip E a _ w Hs). apply IH.
  - rewrite !(getLeaderStatus_hit E a _ w rs Hr). reflexivity.
Qed.

(** X7. In one-shot mode the handler always ends within its first
    iteration, with exit status 0 or 1, and the status is 0 exactly when
    both probes found a self-reported leader and no member of the first
    progress map is missing from the second: the status tells whether a
    full report was printed, not what the report says. *)
Theorem one_shot_exit_status E fuel cl w :
  env_ok E ->
  exists status,
    exitStatus (fst (loop E (S fuel) false cl w)) = Some status
    /\ (status = 0 \/ status = 1)%Z
    /\ (status = 0%Z <->
        exists ep rs0 w1 ep' rs1 w2,
          getLeaderStatus E cl w = (Done (ep, rs0, None), w1)
          /\ getLeaderStatus E [ep] (w1 ++ [EvSleep 1])
             = (Done (ep', rs1, None), w2)
          /\ membersKept rs0 rs1).
Proof.
  intros Hok. rewrite loop_step.
  destruct (getLeaderStatus_returns E cl w) as (k & ep & rs0 & [e|] & H0 & _).
  - rewrite (cycle_initial_failure E false cl w ep rs0 e _ H0).
    exists 1%Z. split; [reflexivity|]. split; [right; reflexivity|].
    split; [discriminate|].
    intros (ep2 & rs2 & w1 & _ & _ & _ & H0' & _).
    rewrite H0 in H0'. discriminate.
  - destruct (getLeaderStatus_single E ep ((w ++ gets (take k cl)) ++ [EvSleep 1]))
      as (ep' & rs1 & [e|] & H1).
    + rewrite (cycle_followup_failure E false cl w ep rs0 _ ep' rs1 e _ H0 H1).
      exists 1%Z. split; [reflexivity|]. split; [right; reflexivity|].
      split; [discriminate|].
      intros (ep2 & rs2 & w1 & ep2' & rs2' & w2 & H0' & H1' & _).
      rewrite H0 in H0'. injection H0' as <- <- <-.
      rewrite H1 in H1'. discriminate.
    + rewrite (cycle_evaluate E false cl w ep rs0 _ ep' rs1 _ H0 H1).
      destruct (membersKept_dec rs0 rs1) as [Hk|Hk].
      * rewrite (evaluate_complete E false rs0 rs1 _ Hok Hk).
        exists 0%Z. split; [reflexivity|]. split; [left; reflexivity|].
        split; [intros _|reflexivity].
        exists ep, rs0, (w ++ gets (take k cl)), ep', rs1. eauto.
      * rewrite (evaluate_config_change E false rs0 rs1 _ Hok Hk).
        exists 1%Z. split; [reflexivity|]. split; [right; reflexivity|].
        split; [discriminate|].
        intros (ep2 & rs2 & w1 & ep2' & rs2' & w2 & H0' & H1' & Hk').
        rewrite H0 in H0'. injection H0' as <- <- <-.
        rewrite H1 in H1'. injection H1' as _ <- _.
        destruct (Hk Hk').
Qed.

Lemma one_shot_exit_status_witness :
  exists status,
    exitStatus (fst (loop Examples.stalledEnv 1 false ["http://a:2379"] []))
    = Some status
    /\ (status = 0 \/ status = 1)%Z
    /\ (status = 0%Z <->
        exists ep rs0 w1 ep' rs1 w2,
          getLeaderStatus Examples.stalledEnv ["http://a:2379"] []
          = (Done (ep, rs0, None), w1)
          /\ getLeaderStatus Examples.stalledEnv [ep] (w1 ++ [EvSleep 1])
             = (Done (ep', rs1, None), w2)
          /\ membersKept rs0 rs1).
Proof.
  apply (one_shot_exit_status Examples.stalledEnv 0 ["http://a:2379"] []).
  intros t m. reflexivity.
Defined.

(** X8. In continuous mode a report that runs to its end, healthy or not,
    is followed by a 10-second sleep and by a new iteration that probes the
    full endpoint list again. *)
Theorem continuous_report_is_repeated E fuel cl w ep rs0 w1 ep' rs1 w2 :
  env_ok E ->
  getLeaderStatus E cl w = (Done (ep, rs0, None), w1) ->
  getLeaderStatus E [ep] (w1 ++ [EvSleep 1]) = (Done (ep', rs1, None), w2) ->
  membersKept rs0 rs1 ->
  loop E (S fuel) true cl w
  = loop E fuel true cl
      (w2 ++ header rs0 rs1 ++ map EvPrint (memberReport rs0 rs1)
          ++ [EvSleep 10]).
Proof.
  intros Hok H0 H1 Hk.
  rewrite loop_step, (cycle_evaluate E true cl w ep rs0 w1 ep' rs1 w2 H0 H1).
  rewrite (evaluate_complete E true rs0 rs1 w2 Hok Hk). reflexivity.
Qed.

Lemma continuous_report_is_repeated_witness :
  loop Examples.stalledEnv 2 true ["http://a:2379"] []
  = loop Examples.stalledEnv 1 true ["http://a:2379"]
      ([EvGet "http://a:2379/debug/vars"; EvSleep 1;
        EvGet "http://a:2379/debug/vars"]
       ++ header Examples.s0 Examples.s0
       ++ map EvPrint (memberReport Examples.s0 Examples.s0)
       ++ [EvSleep 10]).
Proof.
  apply (continuous_report_is_repeated Examples.stalledEnv 1
           ["http://a:2379"] [] "http://a:2379" Examples.s0
           [EvGet "http://a:2379/debug/vars"] "http://a:2379" Examples.s0).
  - intros t m. reflexivity.
  - reflexivity.
  - reflexivity.
  - unfold membersKept. reflexivity.
Defined.

Lemma renderMembers_self items (m : gmap string progress) :
  Forall (fun item => m !! item.1 = Some item.2) items ->
  renderMembers items m
  = map (fun item => memberLine Unhealthy item.1 item.2 item.2) items.
Proof.
  unfold renderMembers. induction 1 as [|[id pr0] rest Hl _ IH];
    [reflexivity|].
  cbn [omap list_omap map]. unfold reportLine at 1. cbn [fst snd] in *.
  rewrite Hl. unfold matchVerdict. rewrite N.leb_refl.
  cbn. f_equal. exact IH.
Qed.

(** X9. When the second status equals the first (a leader that committed
    nothing during the second between the probes), the report is unhealthy
    throughout: the overall line reads "cluster is unhealthy: raft is not
    making progress [commit index: c]", the line of every member reads
    "member id is unhealthy: raft is not making progress [match: m->m]",
    and the configuration-change exit is not taken. *)
Theorem unchanged_status_is_unhealthy E forever rs w :
  env_ok E ->
  evaluate E forever rs rs w
  = (fst (afterReport forever),
     w ++ [EvPrint
             ("cluster is unhealthy: raft is not making progress [commit index: "
              +:+ fmtUint (Commit rs) +:+ "]" +:+ newline);
           EvPrint ("leader is " +:+ Lead rs +:+ newline)]
       ++ map EvPrint
            (sortStrings
               (map (fun item =>
                       "member " +:+ item.1
                       +:+ " is unhealthy: raft is not making progress [match: "
                       +:+ fmtUint (Match item.2) +:+ "->"
                       +:+ fmtUint (Match item.2) +:+ "]" +:+ newline)
                    (map_to_list (Progress rs))))
       ++ snd (afterReport forever)).
Proof.
  intros Hok.
  rewrite (evaluate_complete E forever rs rs w Hok) by (unfold membersKept; reflexivity).
  unfold header, commitVerdict, memberReport. rewrite N.ltb_irrefl.
  rewrite renderMembers_self; [reflexivity|].
  apply Forall_forall. intros [id pr0] Hin.
  apply elem_of_map_to_list.
  first [exact Hin|apply list_elem_of_In, Hin].
Qed.

Lemma unchanged_status_is_unhealthy_witness :
  evaluate Examples.stalledEnv false Examples.s0 Examples.s0 []
  = (fst (afterReport false),
     [] ++ [EvPrint
              ("cluster is unhealthy: raft is not making progress [commit index: "
               +:+ fmtUint (Commit Examples.s0) +:+ "]" +:+ newline);
            EvPrint ("leader is " +:+ Lead Examples.s0 +:+ newline)]
       ++ map EvPrint
            (sortStrings
               (map (fun item =>
                       "member " +:+ item.1
                       +:+ " is unhealthy: raft is not making progress [match: "
                       +:+ fmtUint (Match item.2) +:+ "->"
                       +:+ fmtUint (Match item.2) +:+ "]" +:+ newline)
                    (map_to_list (Progress Examples.s0))))
       ++ snd (afterReport false)).
Proof.
  apply (unchanged_status_is_unhealthy Examples.stalledEnv false Examples.s0 []).
  intros t m. reflexivity.
Defined.

Lemma printed_app w1 w2 : printed (w1 ++ w2) = printed w1 ++ printed w2.
Proof. unfold printed. apply omap_app. Qed.






(** X11. The [forever] flag changes what follows an iteration, not the
    iteration: for the same answers, the first iteration prints the same
    lines and sends the same requests in continuous and in one-shot mode. *)
Theorem iteration_output_is_mode_independent E cl w :
  printed (snd (cycle E true cl w)) = printed (snd (cycle E false cl w))
  /\ requested (snd (cycle E true cl w))
     = requested (snd (cycle E false cl w)).
Proof.
  destruct (getLeaderStatus_returns E cl w) as (k & ep & rs0 & [e|] & H0 & _).
  - rewrite !(cycle_initial_failure E _ cl w ep rs0 e _ H0). cbn [snd].
    rewrite !printed_app, !requested_app. split; reflexivity.
  - destruct (getLeaderStatus_single E ep ((w ++ gets (take k cl)) ++ [EvSleep 1]))
      as (ep' & rs1 & [e|] & H1).
    + rewrite !(cycle_followup_failure E _ cl w ep rs0 _ ep' rs1 e _ H0 H1).
      cbn [snd]. rewrite !printed_app, !requested_app. split; reflexivity.
    + rewrite !(cycle_evaluate E _ cl w ep rs0 _ ep' rs1 _ H0 H1).
      rewrite !evaluate_requested. split; [|reflexivity].
      rewrite !evaluate_run. cbv zeta. destruct (forallb _ _); cbn [snd].
      * rewrite !printed_app. cbn. rewrite !app_nil_r. reflexivity.
      * reflexivity.
Qed.
